(** * tobject2json: the [init] / [get] entry points of the QualityControl addon

    A shallow embedding of [QualityControl/tobject2json.cc].  The file is a
    Node addon: two native functions, [InitBackend] (exported as [init]) and
    [GetObject] (exported as [get]), five file-level [static std::string]
    variables, and one [Napi::AsyncWorker] subclass, [TObjectAsyncWorker].

    Two collaborators are outside the repository and are modelled here by
    their interface only:
    - node-addon-api ([napi.h]): JavaScript values, [CallbackInfo],
      [ThrowAsJavaScriptException], the value coercions and the life cycle of
      an [AsyncWorker] (module [Napi] and the section on the worker's life
      cycle below);
    - the QualityControl database library ([DatabaseFactory],
      [DatabaseInterface]): a record of outcome functions, [DatabaseLibrary],
      over which every definition that reaches the backend is parameterised. *)

From Stdlib Require Import ZArith NArith Lia Ascii String.
From stdpp Require Import base option list strings gmap.

Local Open Scope string_scope.

(** ** JavaScript values as the addon sees them *)

Module Napi.

(** Error objects.  [TypeError m] is the object made by
    [Napi::TypeError::New(env, m)], [Error m] the one made by
    [Napi::Error::New(env, m)]. *)
Inductive JsError : Type :=
| TypeError (message : string)
| Error (message : string).

(** A [Napi::Value].  A number is represented by its integer value (the
    addon only ever reads a number through [Int64Value]); a function by an
    identity. *)
Inductive Value : Type :=
| Undefined
| Null
| Boolean (b : bool)
| Number (n : Z)
| String (s : string)
| Function (id : nat)
| ErrorValue (e : JsError).

Definition IsString (v : Value) : bool :=
  match v with String _ => true | _ => false end.

Definition IsNumber (v : Value) : bool :=
  match v with Number _ => true | _ => false end.

Definition IsFunction (v : Value) : bool :=
  match v with Function _ => true | _ => false end.

(** [Napi::CallbackInfo]: the arguments of one call. *)
Definition CallbackInfo : Type := list Value.

(** [info.Length()]. *)
Definition Length (info : CallbackInfo) : Z := Z.of_nat (length info).

(** [info[i]]: an index past the last argument reads as [undefined]. *)
Definition info_at (info : CallbackInfo) (i : nat) : Value :=
  default Undefined (info !! i).

(** The two N-API status codes the coercions of this file can fail with. *)
Inductive napi_status : Type :=
| napi_string_expected
| napi_number_expected.

Definition status_message (st : napi_status) : string :=
  match st with
  | napi_string_expected => "A string was expected"
  | napi_number_expected => "A number was expected"
  end.

End Napi.

Import Napi.

(** ** Machine integers

    [Int64Value] yields an [int64_t]; [GetObject] stores it in a [uint64_t]
    and hands it to a constructor parameter of type [long] (64 bits wide on
    the LP64 platforms the backend library is built for). *)

Definition int64_min : Z := (- 2 ^ 63)%Z.
Definition int64_max : Z := (2 ^ 63 - 1)%Z.

Definition in_int64 (z : Z) : Prop := (int64_min <= z <= int64_max)%Z.

(** Conversion to [uint64_t]: the value modulo 2^64. *)
Definition to_uint64 (z : Z) : Z := (z mod 2 ^ 64)%Z.

(** Conversion to [long]: the value modulo 2^64, read as two's complement. *)
Definition to_long (z : Z) : Z := ((z + 2 ^ 63) mod 2 ^ 64 - 2 ^ 63)%Z.

(** The integer [napi_get_value_int64] reports for a number: the value
    itself inside the [int64_t] range, the nearest bound outside it. *)
Definition saturate_int64 (z : Z) : Z :=
  Z.max int64_min (Z.min int64_max z).

(** ** The database library *)

(** What an external call does: it returns, or it raises a C++ exception
    whose [what()] is the given text. *)
Inductive Result (A : Type) : Type :=
| Returns (a : A)
| Raises (what : string).

Arguments Returns {A} a.
Arguments Raises {A} what.

(** A [DatabaseInterface] instance, identified by the backend type it was
    created for and the credentials it was last connected with. *)
Record DatabaseInterface : Type := {
  instance_type : string;
  instance_host : string;
  instance_database : string;
  instance_username : string;
  instance_password : string
}.

(** The behaviour of the library: [DatabaseFactory::create(type)],
    [connect(host, database, username, password)] on an instance of a given
    type, and [retrieveJson(path, timestamp, metadata)] on an instance. *)
Record DatabaseLibrary : Type := {
  create_outcome : string -> Result unit;
  connect_outcome : string -> string -> string -> string -> string -> Result unit;
  retrieveJson_outcome :
    DatabaseInterface -> string -> Z -> gmap string string -> Result string
}.

(** Where a call into the library runs: on the thread of the JavaScript
    caller, or on a thread of the worker pool. *)
Inductive Thread : Type :=
| MainThread
| WorkerThread.

Inductive BackendCall : Type :=
| CallCreate (type : string)
| CallConnect (host database username password : string)
| CallRetrieveJson (instance : DatabaseInterface) (path : string)
    (timestamp : Z) (metadata : gmap string string).

(** ** Program state *)

(** The five [static std::string] variables of the file. *)
Record Statics : Type := {
  type : string;
  host : string;
  database : string;
  username : string;
  password : string
}.

(** The data members of a [TObjectAsyncWorker], with the callback held by
    its [Napi::AsyncWorker] base. *)
Record TObjectAsyncWorker : Type := {
  Callback : Value;
  BackendInstance : DatabaseInterface;
  path : string;
  output : string;
  timestamp : Z
}.

(** Everything a call can read or change: the statics, the JavaScript
    exceptions thrown so far (in order), the workers queued and not yet
    completed, the calls made into the database library and the invocations
    of JavaScript callbacks (function and argument list). *)
Record World : Type := {
  statics : Statics;
  thrown : list JsError;
  queued : list TObjectAsyncWorker;
  backend_calls : list (Thread * BackendCall);
  callbacks : list (Value * list Value)
}.

Definition empty_statics : Statics :=
  {| type := EmptyString; host := EmptyString; database := EmptyString; username := EmptyString; password := EmptyString |}.

(** The state of a freshly loaded addon: the statics are empty strings. *)
Definition initial_world : World :=
  {| statics := empty_statics; thrown := []; queued := [];
     backend_calls := []; callbacks := [] |}.

Definition with_statics (s : Statics) (w : World) : World :=
  {| statics := s; thrown := thrown w; queued := queued w;
     backend_calls := backend_calls w; callbacks := callbacks w |}.

Definition with_thrown (t : list JsError) (w : World) : World :=
  {| statics := statics w; thrown := t; queued := queued w;
     backend_calls := backend_calls w; callbacks := callbacks w |}.

Definition with_queued (q : list TObjectAsyncWorker) (w : World) : World :=
  {| statics := statics w; thrown := thrown w; queued := q;
     backend_calls := backend_calls w; callbacks := callbacks w |}.

Definition with_backend_calls (c : list (Thread * BackendCall)) (w : World) : World :=
  {| statics := statics w; thrown := thrown w; queued := queued w;
     backend_calls := c; callbacks := callbacks w |}.

Definition with_callbacks (c : list (Value * list Value)) (w : World) : World :=
  {| statics := statics w; thrown := thrown w; queued := queued w;
     backend_calls := backend_calls w; callbacks := c |}.

(** ** Native code as state passing with C++ exceptions *)

(** A C++ exception in flight: the [Napi::Error] that the library throws
    when an N-API call fails, or an exception of the database library. *)
Inductive CppException : Type :=
| NapiFailure (status : napi_status)
| StdException (what : string).

Definition what (e : CppException) : string :=
  match e with
  | NapiFailure st => status_message st
  | StdException m => m
  end.

(** A piece of native code either runs to its end or is left by an
    exception; in both cases the state reached so far stays.

    The build modelled is the one with [NAPI_CPP_EXCEPTIONS], which
    [napi.h] selects by itself when the compiler has exceptions enabled:
    the database library reports its failures by exceptions, and
    [OnError] of the worker is reached only through the [catch] that
    node-addon-api puts around [Execute] in that build. *)
Inductive Completion (A : Type) : Type :=
| Normal (a : A)
| Unwind (e : CppException).

Arguments Normal {A} a.
Arguments Unwind {A} e.

Definition Native (A : Type) : Type := World -> Completion A * World.

Definition ret {A : Type} (a : A) : Native A := fun w => (Normal a, w).

Definition bind {A B : Type} (m : Native A) (k : A -> Native B) : Native B :=
  fun w =>
    match m w with
    | (Normal a, w') => k a w'
    | (Unwind e, w') => (Unwind e, w')
    end.

Definition throw {A : Type} (e : CppException) : Native A :=
  fun w => (Unwind e, w).

Definition gets {A : Type} (f : World -> A) : Native A :=
  fun w => (Normal (f w), w).

Definition modify (f : World -> World) : Native unit :=
  fun w => (Normal tt, f w).

Declare Scope native_scope.
Delimit Scope native_scope with native.

Notation "x <- m ;; k" := (bind m (fun x => k))
  (at level 100, m at next level, right associativity) : native_scope.
Notation "m ;;; k" := (bind m (fun _ => k))
  (at level 100, right associativity) : native_scope.

Local Open Scope native_scope.

(** *** node-addon-api primitives used by the file *)

(** [e.ThrowAsJavaScriptException()]: the exception becomes pending in the
    JavaScript engine and the native code goes on; it is the caller of the
    primitive that has to [return]. *)
Definition ThrowAsJavaScriptException (e : JsError) : Native unit :=
  modify (fun w => with_thrown (thrown w ++ [e]) w).

(** [std::string s = v.As<Napi::String>()].  [As] is an unchecked cast; the
    conversion to [std::string] reads the value with
    [napi_get_value_string_utf8], which fails with [napi_string_expected] on
    anything but a string, and the library turns the failure into a thrown
    [Napi::Error]. *)
Definition Utf8Value (v : Value) : Native string :=
  match v with
  | String s => ret s
  | _ => throw (NapiFailure napi_string_expected)
  end.

(** [v.As<Napi::Number>().Int64Value()], through [napi_get_value_int64]. *)
Definition Int64Value (v : Value) : Native Z :=
  match v with
  | Number n => ret (saturate_int64 n)
  | _ => throw (NapiFailure napi_number_expected)
  end.

(** [f.MakeCallback(receiver, {a, b})]: the JavaScript function [f] is
    called with the given arguments. *)
Definition MakeCallback (f : Value) (args : list Value) : Native unit :=
  modify (fun w => with_callbacks (callbacks w ++ [(f, args)]) w).

(** [worker->Queue()]: the worker is handed to the event loop. *)
Definition Queue (wk : TObjectAsyncWorker) : Native unit :=
  modify (fun w => with_queued (queued w ++ [wk]) w).

(** *** Strings across the boundary

    A JavaScript string is represented by its UTF-8 encoding (strings with
    unpaired surrogates have none and are not represented).
    [Napi::String::New(env, s)] decodes the bytes of the [std::string] as
    UTF-8 and puts U+FFFD where they are ill-formed. *)

(** The byte [b] lies between [lo] and [hi]. *)
Definition in_range (lo hi : N) (b : ascii) : bool :=
  (lo <=? N_of_ascii b)%N && (N_of_ascii b <=? hi)%N.

(** What the first byte of a UTF-8 sequence announces: a character of its
    own, a number of bytes to follow with the range allowed for the first
    of them, or nothing a sequence can start with. *)
Inductive Utf8Lead : Type :=
| LeadAscii
| LeadOf (trailing : nat) (lower upper : N)
| LeadInvalid.

(** The table of well-formed UTF-8 byte sequences, read by first byte. *)
Definition utf8_lead (b : ascii) : Utf8Lead :=
  if in_range 0x00 0x7F b then LeadAscii
  else if in_range 0xC2 0xDF b then LeadOf 1 0x80 0xBF
  else if in_range 0xE0 0xE0 b then LeadOf 2 0xA0 0xBF
  else if in_range 0xE1 0xEC b then LeadOf 2 0x80 0xBF
  else if in_range 0xED 0xED b then LeadOf 2 0x80 0x9F
  else if in_range 0xEE 0xEF b then LeadOf 2 0x80 0xBF
  else if in_range 0xF0 0xF0 b then LeadOf 3 0x90 0xBF
  else if in_range 0xF1 0xF3 b then LeadOf 3 0x80 0xBF
  else if in_range 0xF4 0xF4 b then LeadOf 3 0x80 0x8F
  else LeadInvalid.

(** The [std::string] made of the given bytes. *)
Definition bytes (l : list N) : string :=
  fold_right (fun n s => String.String (ascii_of_N n) s) EmptyString l.

(** U+FFFD in UTF-8. *)
Definition replacement_character : string := bytes [0xEF; 0xBF; 0xBD]%N.

(** The decoder between two characters, or inside one: the bytes seen,
    how many are still needed and the range allowed for the next. *)
Inductive Utf8State : Type :=
| Utf8Accept
| Utf8Pending (seen : string) (needed : nat) (lower upper : N).

(** One byte read between two characters. *)
Definition utf8_start (b : ascii) : string * Utf8State :=
  match utf8_lead b with
  | LeadAscii => (String.String b EmptyString, Utf8Accept)
  | LeadOf k lo hi => (EmptyString, Utf8Pending (String.String b EmptyString) k lo hi)
  | LeadInvalid => (replacement_character, Utf8Accept)
  end.

(** One byte read: a byte that cannot continue the sequence in progress
    puts U+FFFD in its place and is read again as the start of a new one. *)
Definition utf8_step (st : Utf8State) (b : ascii) : string * Utf8State :=
  match st with
  | Utf8Accept => utf8_start b
  | Utf8Pending seen needed lo hi =>
      if in_range lo hi b then
        match needed with
        | S (S k) =>
            (EmptyString,
             Utf8Pending (seen +:+ String.String b EmptyString) (S k) 0x80 0xBF)
        | _ => (seen +:+ String.String b EmptyString, Utf8Accept)
        end
      else
        let (out, st') := utf8_start b in (replacement_character +:+ out, st')
  end.

(** The string a run of bytes decodes to, itself written in UTF-8; a
    sequence cut short by the end of the input gives U+FFFD. *)
Fixpoint utf8_decode (st : Utf8State) (s : string) : string :=
  match s with
  | EmptyString =>
      match st with
      | Utf8Accept => EmptyString
      | Utf8Pending _ _ _ _ => replacement_character
      end
  | String.String b s' =>
      let (out, st') := utf8_step st b in out +:+ utf8_decode st' s'
  end.


(** [Napi::String::New(env, s)]. *)
Definition String_New (s : string) : Value := String (utf8_decode Utf8Accept s).

(** ** The source file *)

Section Addon.

Variable db : DatabaseLibrary.

(** [DatabaseFactory::create(type)], called on the given thread. *)
Definition DatabaseFactory_create (thread : Thread) (ty : string)
  : Native DatabaseInterface :=
  modify (fun w => with_backend_calls
                     (backend_calls w ++ [(thread, CallCreate ty)]) w) ;;;
  match create_outcome db ty with
  | Returns _ =>
      ret {| instance_type := ty; instance_host := EmptyString; instance_database := EmptyString;
             instance_username := EmptyString; instance_password := EmptyString |}
  | Raises m => throw (StdException m)
  end.

(** [instance->connect(host, database, username, password)]. *)
Definition connect (thread : Thread) (inst : DatabaseInterface)
    (h d u p : string) : Native DatabaseInterface :=
  modify (fun w => with_backend_calls
                     (backend_calls w ++ [(thread, CallConnect h d u p)]) w) ;;;
  match connect_outcome db (instance_type inst) h d u p with
  | Returns _ =>
      ret {| instance_type := instance_type inst; instance_host := h;
             instance_database := d; instance_username := u;
             instance_password := p |}
  | Raises m => throw (StdException m)
  end.

(** [instance->retrieveJson(path, timestamp, metadata)]. *)
Definition retrieveJson (thread : Thread) (inst : DatabaseInterface)
    (p : string) (ts : Z) (metadata : gmap string string) : Native string :=
  modify (fun w => with_backend_calls
                     (backend_calls w ++ [(thread, CallRetrieveJson inst p ts metadata)]) w) ;;;
  match retrieveJson_outcome db inst p ts metadata with
  | Returns s => ret s
  | Raises m => throw (StdException m)
  end.

(** The constructor
    [TObjectAsyncWorker(callback, path, timestamp)]: the member initialisers,
    then [DatabaseFactory::create(type)] and [connect(host, database,
    username, password)] on the statics as they are at that moment.  It runs
    where [new TObjectAsyncWorker] is evaluated, inside [GetObject].
    ([ROOT::EnableThreadSafety()] has no effect on the state modelled.) *)
Definition new_TObjectAsyncWorker (callback : Value) (p : string) (ts : Z)
  : Native TObjectAsyncWorker :=
  s <- gets statics ;;
  inst <- DatabaseFactory_create MainThread (type s) ;;
  inst' <- connect MainThread inst (host s) (database s) (username s) (password s) ;;
  ret {| Callback := callback; BackendInstance := inst'; path := p;
         output := EmptyString; timestamp := ts |}.

(** [Execute()]: an empty metadata map, one call of [retrieveJson], the
    result stored in [output]. *)
Definition Execute (wk : TObjectAsyncWorker) : Native TObjectAsyncWorker :=
  let metadata : gmap string string := ∅ in
  s <- retrieveJson WorkerThread (BackendInstance wk) (path wk) (timestamp wk) metadata ;;
  ret {| Callback := Callback wk; BackendInstance := BackendInstance wk;
         path := path wk; output := s; timestamp := timestamp wk |}.

(** [OnOK()]: the callback receives [null] and the output as a string. *)
Definition OnOK (wk : TObjectAsyncWorker) : Native unit :=
  MakeCallback (Callback wk) [Null; String_New (output wk)].

(** [OnError(e)]: the callback receives the error value and [undefined]. *)
Definition OnError (wk : TObjectAsyncWorker) (e : JsError) : Native unit :=
  MakeCallback (Callback wk) [ErrorValue e; Undefined].

(** [InitBackend(info)], exported as [init].  The test on the arguments
    joins its two conditions with [&&], and no [return] follows the throw:
    the five assignments come next in every case. *)
Definition InitBackend (info : CallbackInfo) : Native unit :=
  (if (Length info <? 5)%Z && negb (IsString (info_at info 0))
   then ThrowAsJavaScriptException (TypeError "Invalid argument")
   else ret tt) ;;;
  s0 <- Utf8Value (info_at info 0) ;;
  modify (fun w => with_statics
    {| type := s0; host := host (statics w); database := database (statics w);
       username := username (statics w); password := password (statics w) |} w) ;;;
  s1 <- Utf8Value (info_at info 1) ;;
  modify (fun w => with_statics
    {| type := type (statics w); host := s1; database := database (statics w);
       username := username (statics w); password := password (statics w) |} w) ;;;
  s2 <- Utf8Value (info_at info 2) ;;
  modify (fun w => with_statics
    {| type := type (statics w); host := host (statics w); database := s2;
       username := username (statics w); password := password (statics w) |} w) ;;;
  s3 <- Utf8Value (info_at info 3) ;;
  modify (fun w => with_statics
    {| type := type (statics w); host := host (statics w);
       database := database (statics w); username := s3;
       password := password (statics w) |} w) ;;;
  s4 <- Utf8Value (info_at info 4) ;;
  modify (fun w => with_statics
    {| type := type (statics w); host := host (statics w);
       database := database (statics w); username := username (statics w);
       password := s4 |} w).

(** [GetObject(info)], exported as [get].  Each test throws and returns.
    Past the tests: the callback (an unchecked cast), the path, the
    timestamp read as [int64_t] and stored in a [uint64_t], then
    [new TObjectAsyncWorker(cb, path, timestamp)], whose third parameter is
    a [long], and [Queue()]. *)
Definition GetObject (info : CallbackInfo) : Native unit :=
  if (Length info <? 3)%Z then
    ThrowAsJavaScriptException (TypeError "Invalid argument count")
  else if negb (IsFunction (info_at info 2)) then
    ThrowAsJavaScriptException (TypeError "Invalid argument types")
  else
    let cb := info_at info 2 in
    p <- Utf8Value (info_at info 0) ;;
    i64 <- Int64Value (info_at info 1) ;;
    let ts : Z := to_uint64 i64 in
    wk <- new_TObjectAsyncWorker cb p (to_long ts) ;;
    Queue wk.

(** *** The life cycle of a queued worker

    node-addon-api runs [Execute] of a queued worker on a thread of the pool
    and catches a [std::exception] it raises; back on the main thread it
    calls [OnOK] when [Execute] ended normally and [OnError] with an [Error]
    carrying the exception's text otherwise, then deletes the worker.
    [run_task i] does this for the worker at position [i] of the queue (the
    pool is free to pick any one). *)
Definition run_task (i : nat) (w : World) : World :=
  match queued w !! i with
  | None => w
  | Some wk =>
      let w1 := with_queued (delete i (queued w)) w in
      match Execute wk w1 with
      | (Normal wk', w2) => snd (OnOK wk' w2)
      | (Unwind e, w2) => snd (OnError wk (Error (what e)) w2)
      end
  end.

(** Completing the queued workers one after the other, oldest first. *)
Fixpoint drain (n : nat) (w : World) : World :=
  match n with
  | O => w
  | S n' => drain n' (run_task 0 w)
  end.

End Addon.

(** ** Vocabulary of the specification *)

(** The specification's [InvalidArgument]: a [TypeError] raised to the
    caller for its arguments. *)
Definition InvalidArgument (e : JsError) : Prop :=
  match e with
  | TypeError _ => True
  | Error _ => False
  end.

(** The test at the head of [InitBackend]. *)
Definition InitBackend_rejects (info : CallbackInfo) : bool :=
  (Length info <? 5)%Z && negb (IsString (info_at info 0)).

(** The worker that [GetObject] builds for [get(p, n, f)] when the backend
    can be created and connected with the statics [s]. *)
Definition worker_for (s : Statics) (p : string) (n : Z) (f : nat)
  : TObjectAsyncWorker :=
  {| Callback := Function f;
     BackendInstance :=
       {| instance_type := type s; instance_host := host s;
          instance_database := database s; instance_username := username s;
          instance_password := password s |};
     path := p; output := EmptyString;
     timestamp := to_long (to_uint64 (saturate_int64 n)) |}.

(** The two calls into the library made by the constructor of a worker. *)
Definition constructor_calls (s : Statics) : list (Thread * BackendCall) :=
  [(MainThread, CallCreate (type s));
   (MainThread, CallConnect (host s) (database s) (username s) (password s))].

(** ** Sample libraries and states *)

(** A library on which every call succeeds; the JSON returned names the
    path. *)
Definition library_ok : DatabaseLibrary :=
  {| create_outcome := fun _ => Returns tt;
     connect_outcome := fun _ _ _ _ _ => Returns tt;
     retrieveJson_outcome := fun _ p _ _ => Returns ("{json of " +:+ p +:+ "}") |}.

(** A library whose database cannot be reached. *)
Definition library_connection_refused : DatabaseLibrary :=
  {| create_outcome := fun _ => Returns tt;
     connect_outcome := fun _ _ _ _ _ => Raises "connection refused";
     retrieveJson_outcome := fun _ _ _ _ => Raises "not connected" |}.

(** A library that connects and then finds no object. *)
Definition library_object_not_found : DatabaseLibrary :=
  {| create_outcome := fun _ => Returns tt;
     connect_outcome := fun _ _ _ _ _ => Returns tt;
     retrieveJson_outcome := fun _ _ _ _ => Raises "object not found" |}.

Definition configured_statics : Statics :=
  {| type := "MySql"; host := "localhost"; database := "quality_control";
     username := "qc_user"; password := "qc_user" |}.

Definition configured_world : World :=
  with_statics configured_statics initial_world.

(** ** The module definition *)

(** The two native functions of the file, as [Napi::Function::New] wraps
    them for JavaScript. *)
Inductive NativeFunction : Type :=
| NativeGetObject
| NativeInitBackend.

(** A property of the [exports] object: one of the wrapped native functions,
    or any other value. *)
Inductive Property : Type :=
| FunctionNew (callback : NativeFunction)
| PlainValue (v : Value).

(** [Init(env, exports)]: sets [get], then [init], and returns the same
    object. *)
Definition Init (exports : gmap string Property) : gmap string Property :=
  <["init" := FunctionNew NativeInitBackend]>
    (<["get" := FunctionNew NativeGetObject]> exports).

(** ** Vocabulary of the further properties *)

(** All the arguments before position [k] are strings. *)
Definition strings_before (info : CallbackInfo) (k : nat) : bool :=
  forallb IsString (map (info_at info) (seq 0 k)).

(** The call into the library that a worker makes when it runs. *)
Definition retrieval_of (wk : TObjectAsyncWorker) : Thread * BackendCall :=
  (WorkerThread,
   CallRetrieveJson (BackendInstance wk) (path wk) (timestamp wk) ∅).

(** The invocation of its continuation that completes a worker. *)
Definition completion_of (db : DatabaseLibrary) (wk : TObjectAsyncWorker)
  : Value * list Value :=
  (Callback wk,
   match retrieveJson_outcome db (BackendInstance wk) (path wk) (timestamp wk) ∅ with
   | Returns s => [Null; String_New s]
   | Raises m => [ErrorValue (Error m); Undefined]
   end).

(** A library that knows the paths under [qc/] only, and answers with the
    path and the credentials of the instance asked. *)
Definition library_by_path : DatabaseLibrary :=
  {| create_outcome := fun _ => Returns tt;
     connect_outcome := fun _ _ _ _ _ => Returns tt;
     retrieveJson_outcome := fun inst p _ _ =>
       if String.prefix "qc/" p
       then Returns ("{" +:+ p +:+ " read by " +:+ instance_username inst +:+ "}")
       else Raises ("no object at " +:+ p) |}.

(** What the JavaScript caller of a native function gets. *)
Inductive CallerSees : Type :=
| ReturnsNormally
| Throws (e : JsError)
| Escapes (what : string).

(** A native function that returns with a JavaScript exception pending
    throws it to its caller.  One that is left by the [Napi::Error] of a
    failed N-API call throws too: node-addon-api catches the [Napi::Error]
    around every native function and throws its value, which is the
    exception already pending if there is one and otherwise a [TypeError]
    with the text of the status.  An exception of the database library is
    not a [Napi::Error]: it is not caught and escapes from the addon. *)
Definition caller_sees {A : Type} (before : World) (r : Completion A * World)
  : CallerSees :=
  match fst r, last (drop (length (thrown before)) (thrown (snd r))) with
  | Unwind (StdException m), _ => Escapes m
  | Unwind (NapiFailure st), None => Throws (TypeError (status_message st))
  | _, Some e => Throws e
  | Normal _, None => ReturnsNormally
  end.


(** Case analysis on the five coercions of [InitBackend], stopping at the
    first argument that is not a string. *)
Ltac InitBackend_cases info :=
  unfold InitBackend, strings_before, bind;
  destruct (Length info <? 5)%Z; cbn;
  (destruct (info_at info 0); cbn; try (repeat split; (reflexivity || discriminate));
   destruct (info_at info 1); cbn; try (repeat split; (reflexivity || discriminate));
   destruct (info_at info 2); cbn; try (repeat split; (reflexivity || discriminate));
   destruct (info_at info 3); cbn; try (repeat split; (reflexivity || discriminate));
   destruct (info_at info 4); cbn; try (repeat split; (reflexivity || discriminate))).

(** ** Basic facts *)

Lemma Length_nonneg (info : CallbackInfo) : (0 <= Length info)%Z.
Proof. unfold Length. lia. Qed.

Lemma Length_cons (v : Value) (info : CallbackInfo) :
  Length (v :: info) = (Length info + 1)%Z.
Proof. unfold Length. cbn [length]. lia. Qed.

Lemma Utf8Value_not_string (v : Value) (w : World) :
  IsString v = false ->
  Utf8Value v w = (Unwind (NapiFailure napi_string_expected), w).
Proof. destruct v; intros H; try reflexivity; discriminate H. Qed.

Lemma saturate_int64_id (n : Z) : in_int64 n -> saturate_int64 n = n.
Proof. unfold in_int64, saturate_int64. lia. Qed.

Lemma to_long_to_uint64 (z : Z) : in_int64 z -> to_long (to_uint64 z) = z.
Proof.
  unfold in_int64, int64_min, int64_max, to_long, to_uint64. intros Hz.
  rewrite Zplus_mod_idemp_l.
  rewrite Z.mod_small; lia.
Qed.



Lemma info_at_short (info : CallbackInfo) (i : nat) :
  (Length info <= Z.of_nat i)%Z -> info_at info i = Undefined.
Proof.
  intros Hlen. unfold info_at, Length in *.
  assert (Hnone : info !! i = None) by (apply lookup_ge_None_2; lia).
  rewrite Hnone. reflexivity.
Qed.

(** ** [InitBackend] *)

(** The test of [InitBackend] throws exactly when both conditions hold, and
    nothing else in the function throws a JavaScript exception. *)
Lemma InitBackend_thrown (info : CallbackInfo) (w : World) :
  thrown (snd (InitBackend info w)) =
  (thrown w ++ (if InitBackend_rejects info
                then [TypeError "Invalid argument"] else []))%list.
Proof.
  unfold InitBackend, InitBackend_rejects.
  destruct ((Length info <? 5)%Z && negb (IsString (info_at info 0)));
    unfold bind; cbn;
    (destruct (info_at info 0); cbn; try (rewrite ?app_nil_r; reflexivity);
     destruct (info_at info 1); cbn; try (rewrite ?app_nil_r; reflexivity);
     destruct (info_at info 2); cbn; try (rewrite ?app_nil_r; reflexivity);
     destruct (info_at info 3); cbn; try (rewrite ?app_nil_r; reflexivity);
     destruct (info_at info 4); cbn; rewrite ?app_nil_r; reflexivity).
Qed.

(** When the test of [InitBackend] fires, the first argument is not a
    string, so the coercion that follows the throw unwinds before any
    assignment. *)
Lemma InitBackend_rejected_unchanged (info : CallbackInfo) (w : World) :
  InitBackend_rejects info = true ->
  InitBackend info w =
  (Unwind (NapiFailure napi_string_expected),
   with_thrown (thrown w ++ [TypeError "Invalid argument"]) w).
Proof.
  intros Hrej. unfold InitBackend. fold (InitBackend_rejects info).
  rewrite Hrej. unfold InitBackend_rejects in Hrej.
  apply andb_prop in Hrej as [_ Hstr]. apply negb_true_iff in Hstr.
  unfold bind. cbn. rewrite Utf8Value_not_string by exact Hstr. reflexivity.
Qed.

(** A call of [InitBackend] whose first five arguments are strings assigns
    them to the five statics and changes nothing else. *)
Lemma InitBackend_five_strings (s0 s1 s2 s3 s4 : string)
    (rest : CallbackInfo) (w : World) :
  InitBackend (String s0 :: String s1 :: String s2 :: String s3 :: String s4 :: rest) w =
  (Normal tt,
   with_statics {| type := s0; host := s1; database := s2;
                   username := s3; password := s4 |} w).
Proof.
  unfold InitBackend.
  replace ((Length (String s0 :: String s1 :: String s2 :: String s3 :: String s4 :: rest) <? 5)%Z)
    with false.
  - reflexivity.
  - symmetry. apply Z.ltb_ge. rewrite !Length_cons.
    pose proof (Length_nonneg rest). lia.
Qed.

(** [InitBackend] runs to its end only on five leading strings. *)
Lemma InitBackend_Normal_inv (info : CallbackInfo) (w w' : World) :
  InitBackend info w = (Normal tt, w') ->
  exists s0 s1 s2 s3 s4 rest,
    info = String s0 :: String s1 :: String s2 :: String s3 :: String s4 :: rest.
Proof.
  destruct (InitBackend_rejects info) eqn:Hrej.
  { rewrite InitBackend_rejected_unchanged by exact Hrej. discriminate. }
  unfold InitBackend. fold (InitBackend_rejects info). rewrite Hrej.
  unfold info_at.
  destruct info as [|v0 [|v1 [|v2 [|v3 [|v4 rest]]]]]; cbn; try discriminate;
    (destruct v0; cbn; try discriminate);
    try (destruct v1; cbn; try discriminate);
    try (destruct v2; cbn; try discriminate);
    try (destruct v3; cbn; try discriminate);
    try (destruct v4; cbn; try discriminate).
  intros _. eauto 10.
Qed.

(** A call of [InitBackend] that lacks five leading strings is left by the
    failure of a string coercion. *)
Lemma InitBackend_not_five_strings_unwinds (info : CallbackInfo) (w : World) :
  strings_before info 5 = false ->
  fst (InitBackend info w) = Unwind (NapiFailure napi_string_expected).
Proof. revert w; intros w; InitBackend_cases info. Qed.

Lemma malformed_not_five_strings (info : CallbackInfo) :
  (Length info < 5)%Z \/ IsString (info_at info 0) = false ->
  strings_before info 5 = false.
Proof.
  intros [Hlen | Hstr]; unfold strings_before; cbn.
  - rewrite (info_at_short info 4) by (cbn; lia). cbn.
    rewrite !andb_false_r. reflexivity.
  - rewrite Hstr. reflexivity.
Qed.

(** What the caller gets from a call of [InitBackend] that is left by a
    failed coercion: the exception of the test when the test fired, the
    [TypeError] of the coercion otherwise. *)
Lemma InitBackend_caller_sees (info : CallbackInfo) (w : World) :
  strings_before info 5 = false ->
  caller_sees w (InitBackend info w) =
  Throws (TypeError (if InitBackend_rejects info
                     then "Invalid argument" else "A string was expected")).
Proof.
  intros Hbad. unfold caller_sees.
  rewrite (InitBackend_not_five_strings_unwinds info w Hbad), InitBackend_thrown.
  rewrite drop_app_length.
  destruct (InitBackend_rejects info); reflexivity.
Qed.

(** ** [GetObject] *)

Lemma GetObject_few_arguments (db : DatabaseLibrary) (info : CallbackInfo) (w : World) :
  (Length info < 3)%Z ->
  GetObject db info w =
  (Normal tt, with_thrown (thrown w ++ [TypeError "Invalid argument count"]) w).
Proof.
  intros Hlen. unfold GetObject.
  apply Z.ltb_lt in Hlen. rewrite Hlen. reflexivity.
Qed.

Lemma GetObject_not_callable (db : DatabaseLibrary) (info : CallbackInfo) (w : World) :
  (3 <= Length info)%Z ->
  IsFunction (info_at info 2) = false ->
  GetObject db info w =
  (Normal tt, with_thrown (thrown w ++ [TypeError "Invalid argument types"]) w).
Proof.
  intros Hlen Hfun. unfold GetObject.
  apply Z.ltb_ge in Hlen. rewrite Hlen, Hfun. reflexivity.
Qed.

(** Past its two tests [GetObject] is the coercions, the constructor and
    [Queue]. *)
Lemma GetObject_past_tests (db : DatabaseLibrary) (info : CallbackInfo) (w : World) :
  (3 <= Length info)%Z ->
  IsFunction (info_at info 2) = true ->
  GetObject db info w =
  (p <- Utf8Value (info_at info 0) ;;
   i64 <- Int64Value (info_at info 1) ;;
   wk <- new_TObjectAsyncWorker db (info_at info 2) p (to_long (to_uint64 i64)) ;;
   Queue wk) w.
Proof.
  intros Hlen Hfun. unfold GetObject.
  apply Z.ltb_ge in Hlen. rewrite Hlen, Hfun. reflexivity.
Qed.

(** The constructor, case by case on what the library does. *)
Lemma new_TObjectAsyncWorker_eq (db : DatabaseLibrary) (cb : Value)
    (p : string) (ts : Z) (w : World) :
  new_TObjectAsyncWorker db cb p ts w =
  let s := statics w in
  match create_outcome db (type s) with
  | Raises m =>
      (Unwind (StdException m),
       with_backend_calls (backend_calls w ++ [(MainThread, CallCreate (type s))]) w)
  | Returns _ =>
      match connect_outcome db (type s) (host s) (database s) (username s) (password s) with
      | Raises m =>
          (Unwind (StdException m),
           with_backend_calls (backend_calls w ++ constructor_calls s) w)
      | Returns _ =>
          (Normal {| Callback := cb;
                     BackendInstance :=
                       {| instance_type := type s; instance_host := host s;
                          instance_database := database s;
                          instance_username := username s;
                          instance_password := password s |};
                     path := p; output := EmptyString; timestamp := ts |},
           with_backend_calls (backend_calls w ++ constructor_calls s) w)
      end
  end.
Proof.
  unfold new_TObjectAsyncWorker, DatabaseFactory_create, connect, bind, gets,
    modify, ret, throw, constructor_calls.
  cbn. destruct (create_outcome db (type (statics w))); cbn; [|reflexivity].
  destruct (connect_outcome db _ _ _ _ _); cbn;
    rewrite <- app_assoc; reflexivity.
Qed.

(** A call [get(p, n, f, ...)] with a string, a number and a function, case
    by case on what the library does. *)
Lemma GetObject_well_formed (db : DatabaseLibrary) (p : string) (n : Z)
    (f : nat) (rest : CallbackInfo) (w : World) :
  GetObject db (String p :: Number n :: Function f :: rest) w =
  let s := statics w in
  match create_outcome db (type s) with
  | Raises m =>
      (Unwind (StdException m),
       with_backend_calls (backend_calls w ++ [(MainThread, CallCreate (type s))]) w)
  | Returns _ =>
      match connect_outcome db (type s) (host s) (database s) (username s) (password s) with
      | Raises m =>
          (Unwind (StdException m),
           with_backend_calls (backend_calls w ++ constructor_calls s) w)
      | Returns _ =>
          (Normal tt,
           with_queued (queued w ++ [worker_for s p n f])
             (with_backend_calls (backend_calls w ++ constructor_calls s) w))
      end
  end.
Proof.
  rewrite GetObject_past_tests.
  - unfold bind, info_at.
    cbn [lookup list_lookup default from_option id Utf8Value Int64Value ret].
    rewrite new_TObjectAsyncWorker_eq. cbn zeta.
    destruct (create_outcome db (type (statics w))); [|reflexivity].
    destruct (connect_outcome db _ _ _ _ _); reflexivity.
  - rewrite !Length_cons. pose proof (Length_nonneg rest). lia.
  - reflexivity.
Qed.

(** ** Completion of a queued worker *)

(** [run_task] on the worker at position [i], case by case on what
    [retrieveJson] does: one call into the library from the pool, with an
    empty metadata map, and one invocation of the worker's callback. *)
Lemma run_task_eq (db : DatabaseLibrary) (i : nat) (wk : TObjectAsyncWorker)
    (w : World) :
  queued w !! i = Some wk ->
  run_task db i w =
  let call := (WorkerThread,
               CallRetrieveJson (BackendInstance wk) (path wk) (timestamp wk) ∅) in
  let args :=
    match retrieveJson_outcome db (BackendInstance wk) (path wk) (timestamp wk) ∅ with
    | Returns s => [Null; String_New s]
    | Raises m => [ErrorValue (Error m); Undefined]
    end in
  {| statics := statics w; thrown := thrown w;
     queued := delete i (queued w);
     backend_calls := backend_calls w ++ [call];
     callbacks := callbacks w ++ [(Callback wk, args)] |}.
Proof.
  intros Hq. unfold run_task. rewrite Hq.
  unfold Execute, retrieveJson, bind, modify, ret, throw. cbn.
  destruct (retrieveJson_outcome db _ _ _ _); reflexivity.
Qed.

Lemma run_task_none (db : DatabaseLibrary) (i : nat) (w : World) :
  queued w !! i = None -> run_task db i w = w.
Proof. intros Hq. unfold run_task. rewrite Hq. reflexivity. Qed.

(** Draining a queue of [n] workers invokes [n] callbacks and leaves the
    queue empty: no worker completes twice and none is forgotten. *)
Lemma drain_counts (db : DatabaseLibrary) (n : nat) (w : World) :
  length (queued w) = n ->
  queued (drain db n w) = [] /\
  length (callbacks (drain db n w)) = (length (callbacks w) + n)%nat.
Proof.
  revert w. induction n as [|n IH]; intros w Hlen.
  - cbn. split; [|lia]. destruct (queued w); [reflexivity | discriminate].
  - destruct (queued w) as [|wk q] eqn:Hq; [discriminate|].
    cbn [drain].
    assert (Hhead : queued w !! 0%nat = Some wk) by (rewrite Hq; reflexivity).
    rewrite (run_task_eq db 0 wk w Hhead). cbn zeta.
    match goal with |- context [drain db n ?w1] => destruct (IH w1) as [IH1 IH2] end.
    { cbn. rewrite Hq. cbn in *. lia. }
    split; [exact IH1|]. rewrite IH2. cbn. rewrite length_app. cbn. lia.
Qed.

(** ** Claims about [init] *)

(** C1.  A call of [init] with fewer than five arguments, and also a call
    whose first argument is not a string, raises an [InvalidArgument] to
    its caller; each of the two conditions is enough.  (The test of
    [InitBackend] itself fires only when both hold; on a call with one
    defect the [TypeError] is the one of the string coercion that meets
    the missing or ill-typed argument.) *)
Theorem InitBackend_malformed_raises_InvalidArgument
    (info : CallbackInfo) (w : World) :
  (Length info < 5)%Z \/ IsString (info_at info 0) = false ->
  exists e : JsError,
    caller_sees w (InitBackend info w) = Throws e /\ InvalidArgument e.
Proof.
  intros Hbad. apply malformed_not_five_strings in Hbad.
  rewrite (InitBackend_caller_sees info w Hbad).
  eexists. split; [reflexivity | exact I].
Qed.

Lemma InitBackend_malformed_raises_InvalidArgument_witness :
  (exists e : JsError,
     caller_sees initial_world
       (InitBackend
          [String "MySql"; String "localhost"; String "quality_control"; String "qc_user"]
          initial_world) = Throws e
     /\ InvalidArgument e)
  /\
  (exists e : JsError,
     caller_sees initial_world
       (InitBackend
          [Number 1; String "localhost"; String "quality_control"; String "qc_user";
           String "secret"]
          initial_world) = Throws e
     /\ InvalidArgument e).
Proof.
  split.
  - apply (InitBackend_malformed_raises_InvalidArgument
             [String "MySql"; String "localhost"; String "quality_control"; String "qc_user"]
             initial_world).
    left. reflexivity.
  - apply (InitBackend_malformed_raises_InvalidArgument
             [Number 1; String "localhost"; String "quality_control"; String "qc_user";
              String "secret"]
             initial_world).
    right. reflexivity.
Defined.

(** C2 (evaluation at the failing input).  A malformed call of [init] is
    meant to leave the five statics as they were.  A call with four string
    arguments on a configured addon passes the test, assigns [type],
    [host], [database] and [username], and only then fails on the missing
    fifth argument: four of the five statics have changed. *)
Theorem InitBackend_four_arguments_changes_statics :
  statics (snd (InitBackend
    [String "CCDB"; String "ccdb-test.cern.ch"; String "other"; String "guest"]
    configured_world))
  = {| type := "CCDB"; host := "ccdb-test.cern.ch"; database := "other";
       username := "guest"; password := "qc_user" |}
  /\ statics (snd (InitBackend
       [String "CCDB"; String "ccdb-test.cern.ch"; String "other"; String "guest"]
       configured_world))
     <> statics configured_world.
Proof. split; [reflexivity | discriminate]. Qed.

(** C8.  A call of [init] that succeeds has five leading string arguments
    and leaves exactly these in the five statics, whatever they held before
    (no merge with the earlier values); a task that [get] creates afterwards
    creates and connects its backend instance with these values and keeps
    that instance. *)
Theorem InitBackend_overwrites_and_later_tasks_use_it
    (db : DatabaseLibrary) (info : CallbackInfo) (w w' : World) :
  InitBackend info w = (Normal tt, w') ->
  exists t h d u pw : string,
    let s := {| type := t; host := h; database := d;
                username := u; password := pw |} in
    take 5 info = [String t; String h; String d; String u; String pw]
    /\ w' = with_statics s w
    /\ forall (p : string) (n : Z) (f : nat) (rest : CallbackInfo) (w'' : World),
         GetObject db (String p :: Number n :: Function f :: rest) w' = (Normal tt, w'') ->
         backend_calls w'' =
           (backend_calls w ++
            [(MainThread, CallCreate t); (MainThread, CallConnect h d u pw)])%list
         /\ queued w'' = (queued w ++ [worker_for s p n f])%list.
Proof.
  intros Hinit.
  destruct (InitBackend_Normal_inv info w w' Hinit)
    as (t & h & d & u & pw & rest0 & ->).
  rewrite InitBackend_five_strings in Hinit. inversion Hinit; subst w'; clear Hinit.
  exists t, h, d, u, pw. cbn zeta. split; [reflexivity|]. split; [reflexivity|].
  intros p n f rest w'' Hget.
  rewrite GetObject_well_formed in Hget. cbn zeta in Hget. cbn [statics with_statics type] in Hget.
  destruct (create_outcome db t); [|discriminate].
  cbn [host database username password] in Hget.
  destruct (connect_outcome db t h d u pw); [|discriminate].
  inversion Hget; subst w''. split; reflexivity.
Qed.

Lemma InitBackend_overwrites_and_later_tasks_use_it_witness :
  exists t h d u pw : string,
    take 5 [String "CCDB"; String "ccdb-test.cern.ch"; String "other";
            String "guest"; String "secret"]
      = [String t; String h; String d; String u; String pw]
    /\ statics (snd (InitBackend
         [String "CCDB"; String "ccdb-test.cern.ch"; String "other";
          String "guest"; String "secret"] configured_world))
       = {| type := t; host := h; database := d; username := u; password := pw |}
    /\ queued (snd (GetObject library_ok
         [String "qc/TEST/obj1"; Number 1000; Function 7]
         (snd (InitBackend
            [String "CCDB"; String "ccdb-test.cern.ch"; String "other";
             String "guest"; String "secret"] configured_world))))
       = [worker_for {| type := t; host := h; database := d;
                        username := u; password := pw |}
            "qc/TEST/obj1" 1000 7].
Proof.
  destruct (InitBackend_overwrites_and_later_tasks_use_it library_ok
              [String "CCDB"; String "ccdb-test.cern.ch"; String "other";
               String "guest"; String "secret"]
              configured_world
              (snd (InitBackend
                 [String "CCDB"; String "ccdb-test.cern.ch"; String "other";
                  String "guest"; String "secret"] configured_world))
              eq_refl)
    as (t & h & d & u & pw & Htake & Hw & Hget).
  exists t, h, d, u, pw. split; [exact Htake|]. split.
  - rewrite Hw. reflexivity.
  - destruct (Hget "qc/TEST/obj1" 1000%Z 7%nat []
                (snd (GetObject library_ok
                   [String "qc/TEST/obj1"; Number 1000; Function 7]
                   (snd (InitBackend
                      [String "CCDB"; String "ccdb-test.cern.ch"; String "other";
                       String "guest"; String "secret"] configured_world)))))
      as [_ Hq].
    + inversion Htake; subst. reflexivity.
    + exact Hq.
Defined.

(** What a well-formed call that returns normally leaves behind: the worker
    at the end of the queue, and the one library call made when it runs. *)
Lemma queued_worker_calls_retrieveJson
    (db : DatabaseLibrary) (p : string) (n : Z) (f : nat)
    (rest : CallbackInfo) (w w' : World) :
  GetObject db (String p :: Number n :: Function f :: rest) w = (Normal tt, w') ->
  let wk := worker_for (statics w) p n f in
  queued w' !! length (queued w) = Some wk
  /\ backend_calls (run_task db (length (queued w)) w') =
       (backend_calls w' ++
        [(WorkerThread,
          CallRetrieveJson (BackendInstance wk) (path wk) (timestamp wk) ∅)])%list.
Proof.
  intros Hget. cbn zeta.
  rewrite GetObject_well_formed in Hget. cbn zeta in Hget.
  destruct (create_outcome db (type (statics w))); [|discriminate].
  destruct (connect_outcome db _ _ _ _ _); [|discriminate].
  inversion Hget; subst w'; clear Hget.
  assert (Hq : ((queued w ++ [worker_for (statics w) p n f])%list) !! length (queued w)
               = Some (worker_for (statics w) p n f)).
  { rewrite lookup_app_r by lia. rewrite Nat.sub_diag. reflexivity. }
  split; [exact Hq|].
  erewrite run_task_eq by exact Hq. reflexivity.
Qed.

(** ** Claims about [get] *)

(** C5.  A call of [get] with fewer than three arguments, or whose third
    argument is not a function, throws an [InvalidArgument] before anything
    else happens: [GetObject] returns at once, no worker is queued, no call
    is made into the database library and no callback is invoked. *)
Theorem GetObject_malformed_throws_InvalidArgument
    (db : DatabaseLibrary) (info : CallbackInfo) (w : World) :
  (Length info < 3)%Z \/ IsFunction (info_at info 2) = false ->
  exists e : JsError,
    InvalidArgument e
    /\ GetObject db info w = (Normal tt, with_thrown (thrown w ++ [e]) w)
    /\ queued (snd (GetObject db info w)) = queued w
    /\ backend_calls (snd (GetObject db info w)) = backend_calls w
    /\ callbacks (snd (GetObject db info w)) = callbacks w.
Proof.
  intros Hbad.
  destruct (Z.lt_ge_cases (Length info) 3) as [Hlt | Hge].
  - exists (TypeError "Invalid argument count").
    rewrite GetObject_few_arguments by exact Hlt. cbn. auto.
  - destruct Hbad as [Hlt | Hfun]; [lia|].
    exists (TypeError "Invalid argument types").
    rewrite GetObject_not_callable by assumption. cbn. auto.
Qed.

Lemma GetObject_malformed_throws_InvalidArgument_witness :
  (exists e : JsError,
     InvalidArgument e
     /\ thrown (snd (GetObject library_ok
          [String "qc/TEST/obj1"; Number 1000] configured_world)) = [e])
  /\
  (exists e : JsError,
     InvalidArgument e
     /\ thrown (snd (GetObject library_ok
          [String "qc/TEST/obj1"; Number 1000; String "callback"] configured_world)) = [e]).
Proof.
  split.
  - destruct (GetObject_malformed_throws_InvalidArgument library_ok
                [String "qc/TEST/obj1"; Number 1000] configured_world)
      as (e & He & Heq & _).
    + left. reflexivity.
    + exists e. split; [exact He|]. rewrite Heq. reflexivity.
  - destruct (GetObject_malformed_throws_InvalidArgument library_ok
                [String "qc/TEST/obj1"; Number 1000; String "callback"] configured_world)
      as (e & He & Heq & _).
    + right. reflexivity.
    + exists e. split; [exact He|]. rewrite Heq. reflexivity.
Defined.

(** C3 (counterexample).  The claim that every backend failure, a failure
    of [connect] included, reaches the continuation and is never thrown to
    the caller of [get] fails when the database refuses the connection:
    [connect] is called by the constructor, inside [GetObject], so the
    exception leaves [GetObject]; no worker is queued and no callback is
    ever invoked. *)
Lemma connect_failure_leaves_GetObject :
  fst (GetObject library_connection_refused
         [String "qc/TEST/obj1"; Number 1000; Function 7] configured_world)
    = Unwind (StdException "connection refused")
  /\ queued (snd (GetObject library_connection_refused
         [String "qc/TEST/obj1"; Number 1000; Function 7] configured_world)) = []
  /\ callbacks (drain library_connection_refused 1
       (snd (GetObject library_connection_refused
          [String "qc/TEST/obj1"; Number 1000; Function 7] configured_world))) = [].
Proof. repeat split; reflexivity. Qed.

(** C3 (amended).  A failure of [retrieveJson] is delivered through the
    error slot of the continuation when the worker completes, and nothing
    is thrown: the call of [get] that queued the worker had already
    returned normally.  A failure of [DatabaseFactory::create] or of
    [connect] happens in the constructor of the worker: it leaves
    [GetObject] as an exception, synchronously, with no worker queued and
    no callback invoked. *)
Theorem backend_failure_delivery
    (db : DatabaseLibrary) (p : string) (n : Z) (f : nat)
    (rest : CallbackInfo) (w : World) :
  let info := String p :: Number n :: Function f :: rest in
  let s := statics w in
  (forall m : string,
     create_outcome db (type s) = Raises m
     \/ (create_outcome db (type s) = Returns tt
         /\ connect_outcome db (type s) (host s) (database s) (username s) (password s)
            = Raises m) ->
     fst (GetObject db info w) = Unwind (StdException m)
     /\ queued (snd (GetObject db info w)) = queued w
     /\ callbacks (snd (GetObject db info w)) = callbacks w)
  /\
  (create_outcome db (type s) = Returns tt ->
   connect_outcome db (type s) (host s) (database s) (username s) (password s)
     = Returns tt ->
   fst (GetObject db info w) = Normal tt
   /\ thrown (snd (GetObject db info w)) = thrown w
   /\ queued (snd (GetObject db info w)) = (queued w ++ [worker_for s p n f])%list)
  /\
  (forall (i : nat) (wk : TObjectAsyncWorker) (m : string),
     queued w !! i = Some wk ->
     retrieveJson_outcome db (BackendInstance wk) (path wk) (timestamp wk) ∅ = Raises m ->
     callbacks (run_task db i w) =
       (callbacks w ++ [(Callback wk, [ErrorValue (Error m); Undefined])])%list
     /\ thrown (run_task db i w) = thrown w).
Proof.
  cbn zeta. split; [|split].
  - intros m [Hc | [Hc Hk]]; rewrite GetObject_well_formed; cbn zeta;
      rewrite Hc; [|rewrite Hk]; cbn; auto.
  - intros Hc Hk. rewrite GetObject_well_formed. cbn zeta.
    rewrite Hc, Hk. cbn. auto.
  - intros i wk m Hq Hr. rewrite (run_task_eq db i wk w Hq). cbn zeta.
    rewrite Hr. cbn. auto.
Qed.

Lemma backend_failure_delivery_witness :
  fst (GetObject library_connection_refused
         [String "qc/TEST/obj1"; Number 1000; Function 7] configured_world)
    = Unwind (StdException "connection refused")
  /\ fst (GetObject library_object_not_found
         [String "qc/TEST/obj1"; Number 1000; Function 7] configured_world)
    = Normal tt
  /\ callbacks (run_task library_object_not_found 0
       (snd (GetObject library_object_not_found
          [String "qc/TEST/obj1"; Number 1000; Function 7] configured_world)))
    = [(Function 7, [ErrorValue (Error "object not found"); Undefined])].
Proof.
  split; [|split].
  - destruct (backend_failure_delivery library_connection_refused
                "qc/TEST/obj1" 1000%Z 7%nat [] configured_world) as [H _].
    apply (H "connection refused"). right. split; reflexivity.
  - destruct (backend_failure_delivery library_object_not_found
                "qc/TEST/obj1" 1000%Z 7%nat [] configured_world) as (_ & H & _).
    apply H; reflexivity.
  - destruct (backend_failure_delivery library_object_not_found
                "qc/TEST/obj1" 1000%Z 7%nat []
                (snd (GetObject library_object_not_found
                   [String "qc/TEST/obj1"; Number 1000; Function 7] configured_world)))
      as (_ & _ & H).
    destruct (H 0%nat (worker_for configured_statics "qc/TEST/obj1" 1000 7)
                "object not found" eq_refl eq_refl) as [Hcb _].
    exact Hcb.
Defined.




(** C6.  A task created by a well-formed call of [get] completes with
    exactly one invocation of the continuation passed to that call: with
    [(null, json)] when [retrieveJson] returned [json], with
    [(error, undefined)] when it raised; the call of [get] itself invokes
    nothing, and the completed task leaves the queue, so it cannot complete
    a second time. *)
Theorem task_completes_with_one_callback
    (db : DatabaseLibrary) (p : string) (n : Z) (f : nat)
    (rest : CallbackInfo) (w w' : World) :
  GetObject db (String p :: Number n :: Function f :: rest) w = (Normal tt, w') ->
  let wk := worker_for (statics w) p n f in
  let i := length (queued w) in
  callbacks w' = callbacks w
  /\ queued w' = (queued w ++ [wk])%list
  /\ queued (run_task db i w') = queued w
  /\ exists args : list Value,
       callbacks (run_task db i w') = (callbacks w' ++ [(Function f, args)])%list
       /\ ((exists json : string,
              retrieveJson_outcome db (BackendInstance wk) (path wk) (timestamp wk) ∅
                = Returns json
              /\ args = [Null; String_New json])
           \/
           (exists m : string,
              retrieveJson_outcome db (BackendInstance wk) (path wk) (timestamp wk) ∅
                = Raises m
              /\ args = [ErrorValue (Error m); Undefined])).
Proof.
  intros Hget. cbn zeta.
  rewrite GetObject_well_formed in Hget. cbn zeta in Hget.
  destruct (create_outcome db (type (statics w))); [|discriminate].
  destruct (connect_outcome db _ _ _ _ _); [|discriminate].
  inversion Hget; subst w'; clear Hget.
  set (wk := worker_for (statics w) p n f).
  assert (Hq : ((queued w ++ [wk])%list) !! length (queued w) = Some wk).
  { rewrite lookup_app_r by lia. rewrite Nat.sub_diag. reflexivity. }
  split; [reflexivity|]. split; [reflexivity|].
  erewrite run_task_eq by exact Hq. cbn zeta.
  cbn [queued callbacks with_queued with_backend_calls].
  split.
  - rewrite delete_middle. apply app_nil_r.
  - destruct (retrieveJson_outcome db (BackendInstance wk) (path wk) (timestamp wk) ∅)
      as [json | m] eqn:Hr.
    + exists [Null; String_New json]. split; [reflexivity|]. left. eauto.
    + exists [ErrorValue (Error m); Undefined]. split; [reflexivity|]. right. eauto.
Qed.

Lemma task_completes_with_one_callback_witness :
  callbacks (run_task library_ok 0
    (snd (GetObject library_ok
       [String "qc/TEST/obj1"; Number 1000; Function 7] configured_world)))
  = [(Function 7, [Null; String "{json of qc/TEST/obj1}"])]
  /\ queued (run_task library_ok 0
       (snd (GetObject library_ok
          [String "qc/TEST/obj1"; Number 1000; Function 7] configured_world)))
     = [].
Proof.
  destruct (task_completes_with_one_callback library_ok
              "qc/TEST/obj1" 1000%Z 7%nat [] configured_world
              (snd (GetObject library_ok
                 [String "qc/TEST/obj1"; Number 1000; Function 7] configured_world))
              eq_refl) as (_ & _ & Hq & _).
  split; [reflexivity | exact Hq].
Defined.




(** C9.  A timestamp inside the signed 64-bit range survives the passage
    through [uint64_t] in [GetObject] and [long] in the worker: the worker
    holds that value, and [retrieveJson] is called with it. *)
Theorem timestamp_reaches_retrieveJson
    (db : DatabaseLibrary) (p : string) (n : Z) (f : nat)
    (rest : CallbackInfo) (w w' : World) :
  in_int64 n ->
  GetObject db (String p :: Number n :: Function f :: rest) w = (Normal tt, w') ->
  exists wk : TObjectAsyncWorker,
    queued w' !! length (queued w) = Some wk
    /\ timestamp wk = n
    /\ backend_calls (run_task db (length (queued w)) w') =
         (backend_calls w' ++
          [(WorkerThread, CallRetrieveJson (BackendInstance wk) p n ∅)])%list.
Proof.
  intros Hn Hget.
  destruct (queued_worker_calls_retrieveJson db p n f rest w w' Hget)
    as (Hq & Hrun).
  exists (worker_for (statics w) p n f).
  assert (Hts : timestamp (worker_for (statics w) p n f) = n).
  { cbn. rewrite saturate_int64_id by exact Hn. apply to_long_to_uint64, Hn. }
  split; [exact Hq|]. split; [exact Hts|].
  rewrite Hrun, Hts. reflexivity.
Qed.

Lemma timestamp_reaches_retrieveJson_witness :
  exists wk : TObjectAsyncWorker,
    queued (snd (GetObject library_ok
      [String "qc/TEST/obj1"; Number (-9223372036854775808); Function 7]
      configured_world)) !! 0%nat = Some wk
    /\ timestamp wk = (-9223372036854775808)%Z.
Proof.
  destruct (timestamp_reaches_retrieveJson library_ok
              "qc/TEST/obj1" (-9223372036854775808)%Z 7%nat [] configured_world
              (snd (GetObject library_ok
                 [String "qc/TEST/obj1"; Number (-9223372036854775808); Function 7]
                 configured_world)))
    as (wk & Hq & Hts & _).
  - unfold in_int64, int64_min, int64_max. lia.
  - reflexivity.
  - exists wk. split; [exact Hq | exact Hts].
Defined.

(** C10 (counterexample).  The claim that every call of [get] with at least
    three arguments and a callable third one raises no error and queues a
    task fails in three ways: a path that is not a string and a timestamp
    that is not a number make the coercion in [GetObject] fail, and the
    caller gets a [TypeError]; a database that refuses the connection makes
    the constructor fail.  Each time the queue stays empty. *)
Lemma callable_third_argument_does_not_ensure_a_task :
  (caller_sees configured_world
     (GetObject library_ok [Number 42; Number 1000; Function 7] configured_world)
     = Throws (TypeError "A string was expected")
   /\ queued (snd (GetObject library_ok
          [Number 42; Number 1000; Function 7] configured_world)) = [])
  /\
  (caller_sees configured_world
     (GetObject library_ok
        [String "qc/TEST/obj1"; String "now"; Function 7] configured_world)
     = Throws (TypeError "A number was expected")
   /\ queued (snd (GetObject library_ok
          [String "qc/TEST/obj1"; String "now"; Function 7] configured_world)) = [])
  /\
  (caller_sees configured_world
     (GetObject library_connection_refused
        [String "qc/TEST/obj1"; Number 1000; Function 7] configured_world)
     = Escapes "connection refused"
   /\ queued (snd (GetObject library_connection_refused
          [String "qc/TEST/obj1"; Number 1000; Function 7] configured_world)) = []).
Proof. repeat split; reflexivity. Qed.

(** C10 (amended).  The tests of [get] look at the argument count and at
    the callability of the third argument only.  On a call with at least
    three arguments whose third is callable: when the path is a string, the
    timestamp a number and the backend instance is created and connected
    without failure, nothing is raised and a task is queued; when the path
    is not a string or the timestamp is not a number, the coercion of that
    argument raises an [InvalidArgument] to the caller and no task is
    queued; when creating or connecting the backend fails, the failure
    leaves [get] and no task is queued. *)
Theorem GetObject_past_its_tests
    (db : DatabaseLibrary) (info : CallbackInfo) (w : World) :
  (3 <= Length info)%Z ->
  IsFunction (info_at info 2) = true ->
  let s := statics w in
  let r := GetObject db info w in
  (IsString (info_at info 0) = true ->
   IsNumber (info_at info 1) = true ->
   create_outcome db (type s) = Returns tt ->
   connect_outcome db (type s) (host s) (database s) (username s) (password s)
     = Returns tt ->
   caller_sees w r = ReturnsNormally
   /\ exists wk : TObjectAsyncWorker,
        Callback wk = info_at info 2
        /\ queued (snd r) = (queued w ++ [wk])%list)
  /\
  (IsString (info_at info 0) = false \/ IsNumber (info_at info 1) = false ->
   (exists e : JsError, caller_sees w r = Throws e /\ InvalidArgument e)
   /\ queued (snd r) = queued w)
  /\
  (IsString (info_at info 0) = true ->
   IsNumber (info_at info 1) = true ->
   forall m : string,
     create_outcome db (type s) = Raises m
     \/ (create_outcome db (type s) = Returns tt
         /\ connect_outcome db (type s) (host s) (database s) (username s) (password s)
            = Raises m) ->
     caller_sees w r = Escapes m /\ queued (snd r) = queued w).
Proof.
  intros Hlen Hfun. cbn zeta.
  rewrite GetObject_past_tests by assumption.
  unfold caller_sees, bind. split; [|split].
  - intros Hs Hn Hc Hk.
    destruct (info_at info 0) as [| | | |p| |]; try discriminate Hs.
    destruct (info_at info 1) as [| | |n| | |]; try discriminate Hn.
    cbn [Utf8Value Int64Value ret]. rewrite new_TObjectAsyncWorker_eq. cbn zeta.
    rewrite Hc, Hk. cbn. rewrite drop_all. cbn. split; [reflexivity|].
    eexists. split; [|reflexivity]. reflexivity.
  - intros Hbad.
    destruct (info_at info 0) as [| | | |p| |];
      try (cbn; rewrite drop_all; cbn; split; [eexists; split; [reflexivity | exact I] | reflexivity]).
    destruct Hbad as [Hs | Hn]; [discriminate Hs|].
    destruct (info_at info 1) as [| | |n| | |]; try discriminate Hn;
      cbn; rewrite drop_all; cbn;
      (split; [eexists; split; [reflexivity | exact I] | reflexivity]).
  - intros Hs Hn m Hfail.
    destruct (info_at info 0) as [| | | |p| |]; try discriminate Hs.
    destruct (info_at info 1) as [| | |n| | |]; try discriminate Hn.
    cbn [Utf8Value Int64Value ret]. rewrite new_TObjectAsyncWorker_eq. cbn zeta.
    destruct Hfail as [Hc | [Hc Hk]]; rewrite Hc; [|rewrite Hk];
      cbn; split; reflexivity.
Qed.

Lemma GetObject_past_its_tests_witness :
  (caller_sees configured_world
     (GetObject library_ok
        [String "qc/TEST/obj1"; Number 1000; Function 7] configured_world)
     = ReturnsNormally
   /\ exists wk : TObjectAsyncWorker,
        Callback wk = Function 7
        /\ queued (snd (GetObject library_ok
             [String "qc/TEST/obj1"; Number 1000; Function 7] configured_world)) = [wk])
  /\
  ((exists e : JsError,
      caller_sees configured_world
        (GetObject library_ok [Number 42; Number 1000; Function 7] configured_world)
        = Throws e
      /\ InvalidArgument e)
   /\ queued (snd (GetObject library_ok
         [Number 42; Number 1000; Function 7] configured_world)) = [])
  /\
  (caller_sees configured_world
     (GetObject library_connection_refused
        [String "qc/TEST/obj1"; Number 1000; Function 7] configured_world)
     = Escapes "connection refused"
   /\ queued (snd (GetObject library_connection_refused
         [String "qc/TEST/obj1"; Number 1000; Function 7] configured_world)) = []).
Proof.
  split; [|split].
  - destruct (GetObject_past_its_tests library_ok
                [String "qc/TEST/obj1"; Number 1000; Function 7] configured_world)
      as (H & _ & _).
    { unfold Length. cbn. lia. }
    { reflexivity. }
    apply H; reflexivity.
  - destruct (GetObject_past_its_tests library_ok
                [Number 42; Number 1000; Function 7] configured_world)
      as (_ & H & _).
    { unfold Length. cbn. lia. }
    { reflexivity. }
    apply H. left. reflexivity.
  - destruct (GetObject_past_its_tests library_connection_refused
                [String "qc/TEST/obj1"; Number 1000; Function 7] configured_world)
      as (_ & _ & H).
    { unfold Length. cbn. lia. }
    { reflexivity. }
    apply (H eq_refl eq_refl "connection refused"). right. split; reflexivity.
Defined.

(** ** Further properties of [InitBackend] *)

(** X1.  The test of [InitBackend] throws its [TypeError], with the
    message "Invalid argument", exactly when fewer than five arguments are
    given and the first one is not a string.  On every other call that
    lacks five leading strings the test stays silent and the caller gets,
    from the failed coercion, a [TypeError] with the message "A string was
    expected". *)
Theorem InitBackend_error_message_by_case (info : CallbackInfo) (w : World) :
  ((Length info < 5)%Z /\ IsString (info_at info 0) = false ->
   thrown (snd (InitBackend info w)) = (thrown w ++ [TypeError "Invalid argument"])%list)
  /\
  ((5 <= Length info)%Z \/ IsString (info_at info 0) = true ->
   thrown (snd (InitBackend info w)) = thrown w
   /\ (strings_before info 5 = false ->
       caller_sees w (InitBackend info w) = Throws (TypeError "A string was expected"))).
Proof.
  rewrite InitBackend_thrown. split.
  - intros [Hlen Hstr]. unfold InitBackend_rejects.
    apply Z.ltb_lt in Hlen. rewrite Hlen, Hstr. reflexivity.
  - intros Hok.
    assert (Hrej : InitBackend_rejects info = false).
    { unfold InitBackend_rejects. destruct Hok as [Hlen | Hstr].
      - apply Z.ltb_ge in Hlen. rewrite Hlen. reflexivity.
      - rewrite Hstr. apply andb_false_r. }
    rewrite Hrej. split; [apply app_nil_r|].
    intros Hbad. rewrite (InitBackend_caller_sees info w Hbad), Hrej. reflexivity.
Qed.

Lemma InitBackend_error_message_by_case_witness :
  thrown (snd (InitBackend [Number 1; String "localhost"] configured_world))
    = [TypeError "Invalid argument"]
  /\ caller_sees configured_world
       (InitBackend [String "MySql"; String "localhost"] configured_world)
     = Throws (TypeError "A string was expected")
  /\ caller_sees configured_world
       (InitBackend [Number 1; String "a"; String "b"; String "c"; String "d"]
          configured_world)
     = Throws (TypeError "A string was expected").
Proof.
  split; [|split].
  - destruct (InitBackend_error_message_by_case
                [Number 1; String "localhost"] configured_world) as [H _].
    apply H. split; reflexivity.
  - destruct (InitBackend_error_message_by_case
                [String "MySql"; String "localhost"] configured_world) as [_ H].
    destruct H as [_ H]; [right; reflexivity|]. apply H. reflexivity.
  - destruct (InitBackend_error_message_by_case
                [Number 1; String "a"; String "b"; String "c"; String "d"]
                configured_world) as [_ H].
    destruct H as [_ H]; [left; unfold Length; cbn; lia|]. apply H. reflexivity.
Defined.

(** X2.  [InitBackend] runs to its end exactly when its first five
    arguments are all strings; a missing argument counts as a value that is
    not a string, and arguments past the fifth play no part. *)
Theorem InitBackend_succeeds_iff_five_strings (info : CallbackInfo) (w : World) :
  fst (InitBackend info w) = Normal tt <-> strings_before info 5 = true.
Proof. split; revert w; intros w; InitBackend_cases info. Qed.

(** X3.  [InitBackend] assigns the statics one by one, in the order [type],
    [host], [database], [username], [password], and stops at the first
    argument that is not a string: a static takes the value of its argument
    when that argument and all the arguments before it are strings, and
    keeps its old value otherwise. *)
Theorem InitBackend_assigns_until_first_non_string (info : CallbackInfo) (w : World) :
  let s := statics w in
  let s' := statics (snd (InitBackend info w)) in
  type s' = (if strings_before info 1
             then match info_at info 0 with String a => a | _ => type s end
             else type s)
  /\ host s' = (if strings_before info 2
                then match info_at info 1 with String a => a | _ => host s end
                else host s)
  /\ database s' = (if strings_before info 3
                    then match info_at info 2 with String a => a | _ => database s end
                    else database s)
  /\ username s' = (if strings_before info 4
                    then match info_at info 3 with String a => a | _ => username s end
                    else username s)
  /\ password s' = (if strings_before info 5
                    then match info_at info 4 with String a => a | _ => password s end
                    else password s).
Proof. cbn zeta. InitBackend_cases info. Qed.

(** X4.  Whatever its arguments, [InitBackend] makes no call into the
    database library, queues no worker and invokes no callback: configuring
    does not connect. *)
Theorem InitBackend_only_touches_statics_and_thrown (info : CallbackInfo) (w : World) :
  backend_calls (snd (InitBackend info w)) = backend_calls w
  /\ queued (snd (InitBackend info w)) = queued w
  /\ callbacks (snd (InitBackend info w)) = callbacks w.
Proof. InitBackend_cases info. Qed.

(** ** Further properties of [GetObject] *)

(** X5.  Whatever its arguments and whatever the library does, [GetObject]
    leaves the five statics as they are and invokes no callback: the
    continuation is never called from inside [get]. *)
Theorem GetObject_keeps_statics_and_calls_nothing_back
    (db : DatabaseLibrary) (info : CallbackInfo) (w : World) :
  statics (snd (GetObject db info w)) = statics w
  /\ callbacks (snd (GetObject db info w)) = callbacks w.
Proof.
  destruct (Z.lt_ge_cases (Length info) 3) as [Hlt | Hge].
  { rewrite GetObject_few_arguments by exact Hlt. split; reflexivity. }
  destruct (IsFunction (info_at info 2)) eqn:Hfun.
  2: { rewrite GetObject_not_callable by assumption. split; reflexivity. }
  rewrite GetObject_past_tests by assumption. unfold bind.
  destruct (info_at info 0); cbn [Utf8Value ret throw]; try (split; reflexivity).
  destruct (info_at info 1); cbn [Int64Value ret throw]; try (split; reflexivity).
  rewrite new_TObjectAsyncWorker_eq. cbn zeta.
  destruct (create_outcome db _); [|split; reflexivity].
  destruct (connect_outcome db _ _ _ _ _); split; reflexivity.
Qed.

(** X6.  On a call that passes the two tests of [GetObject], the path is
    coerced before the timestamp and both before the backend is touched:
    with a path that is not a string the call is left by the failure
    [napi_string_expected], with a string path and a timestamp that is not
    a number by [napi_number_expected], and in both cases nothing at all
    has changed: no instance was created, no connection attempted. *)
Theorem GetObject_coercion_failure_changes_nothing
    (db : DatabaseLibrary) (info : CallbackInfo) (w : World) :
  (3 <= Length info)%Z ->
  IsFunction (info_at info 2) = true ->
  IsString (info_at info 0) = false \/ IsNumber (info_at info 1) = false ->
  GetObject db info w =
  (Unwind (NapiFailure (if IsString (info_at info 0)
                        then napi_number_expected
                        else napi_string_expected)), w).
Proof.
  intros Hlen Hfun Hbad.
  rewrite GetObject_past_tests by assumption. unfold bind.
  destruct (info_at info 0); cbn; try reflexivity.
  destruct Hbad as [Hs | Hn]; [discriminate Hs|].
  destruct (info_at info 1); cbn; try reflexivity. discriminate Hn.
Qed.

Lemma GetObject_coercion_failure_changes_nothing_witness :
  GetObject library_ok [Null; String "now"; Function 7] configured_world
    = (Unwind (NapiFailure napi_string_expected), configured_world)
  /\ GetObject library_ok [String "qc/TEST/obj1"; String "now"; Function 7] configured_world
    = (Unwind (NapiFailure napi_number_expected), configured_world).
Proof.
  split.
  - apply (GetObject_coercion_failure_changes_nothing library_ok
             [Null; String "now"; Function 7] configured_world).
    + unfold Length. cbn. lia.
    + reflexivity.
    + left. reflexivity.
  - apply (GetObject_coercion_failure_changes_nothing library_ok
             [String "qc/TEST/obj1"; String "now"; Function 7] configured_world).
    + unfold Length. cbn. lia.
    + reflexivity.
    + right. reflexivity.
Defined.

Lemma info_at_take (info : CallbackInfo) (k i : nat) :
  (i < k)%nat -> info_at (take k info) i = info_at info i.
Proof.
  intros Hik. unfold info_at. f_equal. apply lookup_take_lt, Hik.
Qed.

Lemma Length_take (info : CallbackInfo) (k : nat) :
  (Z.of_nat k <= Length info)%Z -> Length (take k info) = Z.of_nat k.
Proof. unfold Length. intros Hk. rewrite length_take. lia. Qed.

(** X7.  Arguments past the ones a function reads are ignored: [GetObject]
    on at least three arguments does what it does on the first three, and
    [InitBackend] on at least five arguments what it does on the first
    five. *)
Theorem extra_arguments_are_ignored
    (db : DatabaseLibrary) (info : CallbackInfo) (w : World) :
  ((3 <= Length info)%Z -> GetObject db info w = GetObject db (take 3 info) w)
  /\ ((5 <= Length info)%Z -> InitBackend info w = InitBackend (take 5 info) w).
Proof.
  split; intros Hlen.
  - assert (Hlen' : (3 <= Length (take 3 info))%Z) by (rewrite Length_take; lia).
    destruct (IsFunction (info_at info 2)) eqn:Hfun.
    + rewrite !GetObject_past_tests; try assumption.
      * rewrite !info_at_take by lia. reflexivity.
      * rewrite info_at_take by lia. exact Hfun.
    + rewrite !GetObject_not_callable; try assumption; [reflexivity|].
      rewrite info_at_take by lia. exact Hfun.
  - unfold InitBackend. rewrite !info_at_take by lia.
    rewrite Length_take by lia.
    apply Z.ltb_ge in Hlen. rewrite Hlen. reflexivity.
Qed.

Lemma extra_arguments_are_ignored_witness :
  GetObject library_ok
    [String "qc/TEST/obj1"; Number 1000; Function 7; String "more"] configured_world
  = GetObject library_ok
      [String "qc/TEST/obj1"; Number 1000; Function 7] configured_world
  /\ InitBackend
       [String "a"; String "b"; String "c"; String "d"; String "e"; Number 6]
       configured_world
     = InitBackend [String "a"; String "b"; String "c"; String "d"; String "e"]
         configured_world.
Proof.
  split.
  - destruct (extra_arguments_are_ignored library_ok
                [String "qc/TEST/obj1"; Number 1000; Function 7; String "more"]
                configured_world) as [H _].
    apply H. unfold Length. cbn. lia.
  - destruct (extra_arguments_are_ignored library_ok
                [String "a"; String "b"; String "c"; String "d"; String "e"; Number 6]
                configured_world) as [_ H].
    apply H. unfold Length. cbn. lia.
Defined.

(** X8.  [get] on an addon that was never configured does not fail early:
    a well-formed call asks the library for a backend of the empty type
    and, when the library provides one, connects it with four empty
    strings. *)
Theorem GetObject_before_InitBackend_uses_empty_strings
    (db : DatabaseLibrary) (p : string) (n : Z) (f : nat) (rest : CallbackInfo) :
  backend_calls
    (snd (GetObject db (String p :: Number n :: Function f :: rest) initial_world))
  = match create_outcome db EmptyString with
    | Returns _ =>
        [(MainThread, CallCreate EmptyString);
         (MainThread, CallConnect EmptyString EmptyString EmptyString EmptyString)]
    | Raises _ => [(MainThread, CallCreate EmptyString)]
    end.
Proof.
  rewrite GetObject_well_formed. cbn.
  destruct (create_outcome db EmptyString); [|reflexivity].
  destruct (connect_outcome db _ _ _ _ _); reflexivity.
Qed.

(** X9.  The passage of a timestamp through [uint64_t] and [long] always
    ends inside the signed 64-bit range, on a value congruent to the
    original modulo 2^64, and it gives the original back exactly when the
    original was inside that range. *)
Theorem to_long_to_uint64_round_trip (z : Z) :
  in_int64 (to_long (to_uint64 z))
  /\ ((to_long (to_uint64 z) - z) mod 2 ^ 64 = 0)%Z
  /\ (to_long (to_uint64 z) = z <-> in_int64 z).
Proof.
  assert (Hr : in_int64 (to_long (to_uint64 z))).
  { unfold in_int64, int64_min, int64_max, to_long, to_uint64.
    pose proof (Z.mod_pos_bound (z mod 2 ^ 64 + 2 ^ 63) (2 ^ 64)). lia. }
  split; [exact Hr|]. split.
  - unfold to_long, to_uint64. rewrite Zplus_mod_idemp_l.
    rewrite (Z.mod_eq (z + 2 ^ 63) (2 ^ 64)) by lia.
    replace (z + 2 ^ 63 - 2 ^ 64 * ((z + 2 ^ 63) / 2 ^ 64) - 2 ^ 63 - z)%Z
      with ((- ((z + 2 ^ 63) / 2 ^ 64)) * 2 ^ 64)%Z by lia.
    apply Z_mod_mult.
  - split.
    + intros Heq. rewrite <- Heq. exact Hr.
    + apply to_long_to_uint64.
Qed.

(** ** Further properties of the worker's life cycle *)


(** X10.  Completing all the queued workers, oldest first, hands every
    worker's own result to that worker's own callback, in the order of the
    queue: one call of [retrieveJson] and one invocation per worker, with
    the worker's own instance, path and timestamp.  The queue ends empty,
    nothing is thrown and the statics are not touched. *)
Theorem drain_delivers_each_result_to_its_own_callback
    (db : DatabaseLibrary) (w : World) :
  let w' := drain db (length (queued w)) w in
  callbacks w' = (callbacks w ++ map (completion_of db) (queued w))%list
  /\ backend_calls w' = (backend_calls w ++ map retrieval_of (queued w))%list
  /\ queued w' = []
  /\ thrown w' = thrown w
  /\ statics w' = statics w.
Proof.
  cbn zeta. remember (queued w) as q eqn:Hq. revert w Hq.
  induction q as [|wk q IH]; intros w Hq.
  - cbn. rewrite !app_nil_r. auto.
  - cbn [length drain].
    assert (Hhead : queued w !! 0%nat = Some wk) by (rewrite <- Hq; reflexivity).
    rewrite (run_task_eq db 0 wk w Hhead). cbn zeta.
    match goal with |- context [drain db (length q) ?w1] =>
      destruct (IH w1) as (H1 & H2 & H3 & H4 & H5) end.
    { cbn. rewrite <- Hq. reflexivity. }
    rewrite H1, H2, H3, H4, H5. cbn. rewrite <- !app_assoc. auto.
Qed.



(** X12.  A queued task keeps the configuration it was created with: when
    [init] succeeds between the call of [get] and the completion of its
    task, the task still retrieves through the instance created and
    connected with the earlier statics. *)
Theorem queued_task_keeps_its_configuration
    (db : DatabaseLibrary) (p : string) (n : Z) (f : nat)
    (rest info : CallbackInfo) (w w1 w2 : World) :
  GetObject db (String p :: Number n :: Function f :: rest) w = (Normal tt, w1) ->
  InitBackend info w1 = (Normal tt, w2) ->
  let wk := worker_for (statics w) p n f in
  queued w2 !! length (queued w) = Some wk
  /\ backend_calls (run_task db (length (queued w)) w2)
     = (backend_calls w2 ++ [retrieval_of wk])%list
  /\ callbacks (run_task db (length (queued w)) w2)
     = (callbacks w2 ++ [completion_of db wk])%list.
Proof.
  intros Hget Hinit. cbn zeta.
  destruct (queued_worker_calls_retrieveJson db p n f rest w w1 Hget) as [Hq _].
  destruct (InitBackend_Normal_inv info w1 w2 Hinit)
    as (t & h & d & u & pw & rest0 & ->).
  rewrite InitBackend_five_strings in Hinit. inversion Hinit; subst w2; clear Hinit.
  split; [exact Hq|].
  match goal with |- context [run_task db ?i ?w0] =>
    rewrite (run_task_eq db i (worker_for (statics w) p n f) w0 Hq) end.
  split; reflexivity.
Qed.

Lemma queued_task_keeps_its_configuration_witness :
  callbacks (run_task library_by_path 0
    (snd (InitBackend
       [String "CCDB"; String "ccdb-test.cern.ch"; String "other";
        String "guest"; String "secret"]
       (snd (GetObject library_by_path [String "qc/a"; Number 1; Function 1]
          configured_world)))))
  = [(Function 1, [Null; String "{qc/a read by qc_user}"])].
Proof.
  destruct (queued_task_keeps_its_configuration library_by_path
              "qc/a" 1%Z 1%nat []
              [String "CCDB"; String "ccdb-test.cern.ch"; String "other";
               String "guest"; String "secret"]
              configured_world
              (snd (GetObject library_by_path [String "qc/a"; Number 1; Function 1]
                 configured_world))
              (snd (InitBackend
                 [String "CCDB"; String "ccdb-test.cern.ch"; String "other";
                  String "guest"; String "secret"]
                 (snd (GetObject library_by_path [String "qc/a"; Number 1; Function 1]
                    configured_world))))
              eq_refl eq_refl) as (_ & _ & H).
  exact H.
Defined.

(** ** The module definition *)

(** X13.  [Init] defines [get] as the wrapped [GetObject] and [init] as the
    wrapped [InitBackend], replacing whatever [exports] held under these
    two names; every other property of [exports] is kept, and running
    [Init] a second time changes nothing. *)
Theorem Init_defines_get_and_init (exports : gmap string Property) :
  Init exports !! "get" = Some (FunctionNew NativeGetObject)
  /\ Init exports !! "init" = Some (FunctionNew NativeInitBackend)
  /\ dom (Init exports) = {["get"; "init"]} ∪ dom exports
  /\ delete "get" (delete "init" (Init exports)) = delete "get" (delete "init" exports)
  /\ Init (Init exports) = Init exports.
Proof.
  unfold Init. split; [|split; [|split; [|split]]].
  - rewrite lookup_insert_ne by discriminate. apply lookup_insert_eq.
  - apply lookup_insert_eq.
  - rewrite !dom_insert_L. apply set_eq. intros k.
    rewrite !elem_of_union, !elem_of_singleton. tauto.
  - rewrite delete_insert_eq. rewrite (delete_delete _ "get" "init").
    rewrite delete_insert_eq. apply delete_delete.
  - apply map_eq. intros k. rewrite !lookup_insert.
    repeat case_decide; congruence.
Qed.
